(** * Subscriber preference resolution (novu, application-generic)

    A shallow embedding of the two use cases

    - [get-subscriber-template-preference.usecase.ts]
      (class [GetSubscriberTemplatePreference] and its module-level helpers),
    - [get-subscriber-preference.usecase.ts]
      (class [GetSubscriberPreference] and the response interfaces),

    followed by the properties of the resolution that the specification
    states.  JavaScript objects used as channel maps are finite maps with
    string keys; a rejected promise is the left injection of a sum; the
    repositories injected through the constructors are a record of
    functions. *)

From stdpp Require Import gmap strings list fin_maps.

Open Scope string_scope.
Open Scope list_scope.

(* ===================================================================== *)
(** * Run-time values and entities *)
(* ===================================================================== *)

(** The values a loosely typed attribute can hold once it has been read
    back from storage.  [JsUndefined] is an absent attribute. *)
Inductive JsValue : Type :=
  | JsUndefined
  | JsNull
  | JsBool (b : bool)
  | JsNumber (n : Z)
  | JsString (s : string).

(** [v === true] *)
Definition strict_eq_true (v : JsValue) : bool :=
  match v with
  | JsBool true => true
  | _ => false
  end.

(** [IPreferenceChannels]: an object whose keys are channel names. *)
Abbreviation IPreferenceChannels := (gmap string bool).

(** The members of [ChannelTypeEnum], as the strings they are at run time. *)
Definition ChannelTypeEnum_IN_APP : string := "in_app".
Definition ChannelTypeEnum_EMAIL : string := "email".
Definition ChannelTypeEnum_SMS : string := "sms".
Definition ChannelTypeEnum_CHAT : string := "chat".
Definition ChannelTypeEnum_PUSH : string := "push".

Record MessageTemplateEntity : Type := {
  mt_id : string;
  mt_type : string
}.

Record NotificationStepEntity : Type := {
  step_active : JsValue;
  step_template : option MessageTemplateEntity;
  step_templateId : string
}.

Record NotificationTemplateEntity : Type := {
  tpl_id : string;
  tpl_name : string;
  tpl_critical : option bool;
  tpl_steps : list NotificationStepEntity;
  tpl_preferenceSettings : option IPreferenceChannels
}.

Record SubscriberEntity : Type := {
  sub_id : string;
  sub_subscriberId : string
}.

Record SubscriberPreferenceEntity : Type := {
  sp_enabled : option bool;
  sp_channels : option IPreferenceChannels
}.

Record MemberEntity : Type := {
  member_userId : string
}.

(* ===================================================================== *)
(** * Responses ([get-subscriber-preference.usecase.ts], lines 65-83) *)
(* ===================================================================== *)

Record ITemplateConfiguration : Type := {
  cfg_id : string;
  cfg_name : string;
  cfg_critical : bool
}.

Inductive OverrideSource : Type :=
  | source_template
  | source_subscriber.

Record IPreferenceOverride : Type := {
  override_channel : string;
  override_source : OverrideSource
}.

(** The [preference] member of a response.  The interface declares
    [overrides] as a mandatory array; at run time the property is whatever
    the object literal that built the response gave it, so the embedding
    keeps it optional and [None] stands for a property that is not there. *)
Record PreferencePart : Type := {
  enabled : bool;
  channels : IPreferenceChannels;
  overrides : option (list IPreferenceOverride)
}.

Record ISubscriberPreferenceResponse : Type := {
  template : ITemplateConfiguration;
  preference : PreferencePart
}.

(* ===================================================================== *)
(** * Commands, collaborators and failures *)
(* ===================================================================== *)

Record GetSubscriberTemplatePreferenceCommand : Type := {
  tc_organizationId : string;
  tc_subscriberId : string;
  tc_environmentId : string;
  tc_template : NotificationTemplateEntity;
  tc_subscriber : option SubscriberEntity
}.

Record GetSubscriberPreferenceCommand : Type := {
  pc_organizationId : string;
  pc_subscriberId : string;
  pc_environmentId : string
}.

(** The repositories of [@novu/dal] that the constructors receive.  Their
    code is outside the two use cases; each is the function from the query
    to what the storage answers. *)
Record Repositories : Type := {
  (** [subscriberRepository.findBySubscriberId(environmentId, subscriberId)] *)
  findBySubscriberId : string → string → option SubscriberEntity;
  (** [subscriberPreferenceRepository.findOne
        ({_environmentId, _subscriberId, _templateId})] *)
  findOne : string → string → string → option SubscriberPreferenceEntity;
  (** [messageTemplateRepository.find({_environmentId, _id: {$in: ids}})] *)
  find : string → list string → list MessageTemplateEntity;
  (** [notificationTemplateRepository.getActiveList
        (organizationId, environmentId, true)] *)
  getActiveList : string → string → bool → list NotificationTemplateEntity;
  (** [memberRepository.getOrganizationAdminAccount(organizationId)] *)
  getOrganizationAdminAccount : string → option MemberEntity
}.

Inductive Exception : Type :=
  | ApiException (message : string).

(** A settled promise: rejected with an exception or fulfilled. *)
Definition Promise (A : Type) : Type := Exception + A.

Definition resolve {A : Type} (a : A) : Promise A := inr a.
Definition throw {A : Type} (e : Exception) : Promise A := inl e.

Definition await {A B : Type} (p : Promise A) (k : A → Promise B) : Promise B :=
  match p with
  | inl e => inl e
  | inr a => k a
  end.

Notation "'let!' x ':=' p 'in' k" := (await p (fun x => k))
  (at level 10, x name, p at level 100, k at level 200).

(** [Promise.all]: fulfilled with the values in the order of the promises
    once all are fulfilled, rejected as soon as one is. *)
Fixpoint Promise_all {A : Type} (ps : list (Promise A)) : Promise (list A) :=
  match ps with
  | [] => resolve []
  | p :: ps' =>
      let! a := p in
      let! rest := Promise_all ps' in
      resolve (a :: rest)
  end.

(** What [analyticsService.track] was called with. *)
Record TrackedEvent : Type := {
  ev_name : string;
  ev_userId : string;
  ev_organization : string;
  ev_templatesSize : nat
}.

(* ===================================================================== *)
(** * [get-subscriber-template-preference.usecase.ts] *)
(* ===================================================================== *)

(** [Object.keys(o)] and the keys a [for ... in] loop visits. *)
Definition Object_keys (o : IPreferenceChannels) : list string :=
  (map_to_list o).*1.

(** [Object.assign(target, ...sources)]: every source in turn overwrites
    the keys it has. *)
Definition Object_assign (target : IPreferenceChannels)
    (sources : list (option IPreferenceChannels)) : IPreferenceChannels :=
  foldl (fun acc src => default ∅ src ∪ acc) target sources.

(** [list.includes(channel)] *)
Definition includes (l : list string) (channel : string) : bool :=
  bool_decide (channel ∈ l).

(** The reducer of lines 146-153: push the channel unless it is there. *)
Definition push_if_new (l : list string) (channel : string) : list string :=
  if includes l channel then l else l ++ [channel].

(** [[...new Set(xs)]]: a Set keeps its values in insertion order and
    ignores the insertion of a value it has. *)
Definition spread_Set (xs : list string) : list string :=
  foldl (fun s x => if bool_decide (x ∈ s) then s else s ++ [x]) [] xs.

(** Lines 179-191. *)
Definition filterActiveChannels (activeChannels : list string)
    (preference : option IPreferenceChannels) : IPreferenceChannels :=
  let filteredChannels := Object_assign ∅ [preference] in
  foldl
    (fun filtered key =>
       if existsb (fun channel => bool_decide (channel = key)) activeChannels
       then filtered
       else delete key filtered)
    filteredChannels
    (from_option Object_keys [] preference).

(** Lines 230-246.  The object literal has the members [enabled] and
    [channels] only. *)
Definition getResponse (responseTemplate : ITemplateConfiguration)
    (subscriberPreferenceEnabled : bool)
    (subscriberPreferenceChannels : option IPreferenceChannels)
    (activeChannels : list string) : ISubscriberPreferenceResponse :=
  {| template := responseTemplate;
     preference :=
       {| enabled := subscriberPreferenceEnabled;
          channels :=
            filterActiveChannels activeChannels subscriberPreferenceChannels;
          overrides := None |} |}.

(** The literal of lines 200-206. *)
Definition allChannelsOn : IPreferenceChannels :=
  <["email" := true]> (<["sms" := true]> (<["in_app" := true]>
    (<["chat" := true]> (<["push" := true]> ∅)))).

(** Lines 193-209. *)
Definition getNoSettingFallback (template : ITemplateConfiguration)
    (activeChannels : list string) : ISubscriberPreferenceResponse :=
  getResponse template true (Some allChannelsOn) activeChannels.

(** Lines 211-219. *)
Definition mapResponseTemplate (template : NotificationTemplateEntity)
    : ITemplateConfiguration :=
  {| cfg_id := tpl_id template;
     cfg_name := tpl_name template;
     cfg_critical :=
       match tpl_critical template with
       | Some c => c
       | None => true
       end |}.

(** Lines 221-228.  An object and an array are truthy whatever they hold,
    so the first test fails only on a missing argument; the array is always
    passed. *)
Definition subscriberPreferenceIsWhole
    (preference : option IPreferenceChannels)
    (activeChannels : list string) : bool :=
  match preference with
  | None => false
  | Some p => bool_decide (length (Object_keys p) = length activeChannels)
  end.

(** Lines 117-119: the steps kept by [step.active === true]. *)
Definition activeSteps (template : NotificationTemplateEntity)
    : list NotificationStepEntity :=
  filter (fun step => strict_eq_true (step_active step) = true)
         (tpl_steps template).

(** Lines 121-123: [activeSteps.some((step) => !step.template)]. *)
Definition stepMissingMessageTemplate (steps : list NotificationStepEntity)
    : bool :=
  existsb (fun step => bool_decide (step_template step = None)) steps.

(** Lines 113-156.  On the second branch every step has its template, so
    collecting the types of the templates that are there is the [map] of
    line 145. *)
Definition queryActiveChannels (R : Repositories)
    (command : GetSubscriberTemplatePreferenceCommand) : list string :=
  let activeSteps := activeSteps (tc_template command) in
  if stepMissingMessageTemplate activeSteps then
    let messageIds := map step_templateId activeSteps in
    let messageTemplates := find R (tc_environmentId command) messageIds in
    spread_Set (map mt_type messageTemplates)
  else
    foldl push_if_new []
      (omap (fun item => mt_type <$> step_template item) activeSteps).

(** [subscriberPreference?.enabled ?? true] *)
Definition enabledOrTrue (subscriberPreference : option SubscriberPreferenceEntity)
    : bool :=
  match subscriberPreference with
  | Some sp => default true (sp_enabled sp)
  | None => true
  end.

(** [subscriberPreference?.channels] *)
Definition channelsOf (subscriberPreference : option SubscriberPreferenceEntity)
    : option IPreferenceChannels :=
  subscriberPreference ≫= sp_channels.

(** Lines 32-37: [command.subscriber ?? (await findBySubscriberId(...))]. *)
Definition resolveSubscriber (R : Repositories)
    (command : GetSubscriberTemplatePreferenceCommand)
    : option SubscriberEntity :=
  match tc_subscriber command with
  | Some s => Some s
  | None =>
      findBySubscriberId R (tc_environmentId command) (tc_subscriberId command)
  end.

(** Line 39: the exception thrown when no subscriber is there. *)
Definition notFound (command : GetSubscriberTemplatePreferenceCommand)
    : Exception :=
  ApiException ("Subscriber " +:+ tc_subscriberId command +:+ " not found").

(** Lines 42-47: the stored preference read for the resolved subscriber. *)
Definition storedFor (R : Repositories)
    (command : GetSubscriberTemplatePreferenceCommand)
    (subscriber : SubscriberEntity) : option SubscriberPreferenceEntity :=
  findOne R (tc_environmentId command) (sub_id subscriber)
    (tpl_id (tc_template command)).

(** Lines 28-111. *)
Definition execute (R : Repositories)
    (command : GetSubscriberTemplatePreferenceCommand)
    : Promise ISubscriberPreferenceResponse :=
  let activeChannels := queryActiveChannels R command in
  let! subscriber :=
    match resolveSubscriber R command with
    | Some s => resolve s
    | None => throw (notFound command)
    end in
  let subscriberPreference := storedFor R command subscriber in
  let responseTemplate := mapResponseTemplate (tc_template command) in
  let subscriberPreferenceEnabled := enabledOrTrue subscriberPreference in
  if subscriberPreferenceIsWhole (channelsOf subscriberPreference) activeChannels
  then
    resolve (getResponse responseTemplate subscriberPreferenceEnabled
               (channelsOf subscriberPreference) activeChannels)
  else
    match tpl_preferenceSettings (tc_template command) with
    | Some templatePreference =>
        match channelsOf subscriberPreference with
        | None =>
            resolve (getResponse responseTemplate subscriberPreferenceEnabled
                       (Some templatePreference) activeChannels)
        | Some subscriberChannels =>
            let mergedPreference :=
              Object_assign ∅ [Some templatePreference; Some subscriberChannels] in
            resolve (getResponse responseTemplate subscriberPreferenceEnabled
                       (Some mergedPreference) activeChannels)
        end
    | None =>
        resolve (getNoSettingFallback responseTemplate activeChannels)
    end.

(* ===================================================================== *)
(** * [get-subscriber-preference.usecase.ts] *)
(* ===================================================================== *)

(** [GetSubscriberTemplatePreferenceCommand.create] of lines 53-58: no
    subscriber entity is handed over. *)
Definition createTemplateCommand (command : GetSubscriberPreferenceCommand)
    (template : NotificationTemplateEntity)
    : GetSubscriberTemplatePreferenceCommand :=
  {| tc_organizationId := pc_organizationId command;
     tc_subscriberId := pc_subscriberId command;
     tc_environmentId := pc_environmentId command;
     tc_template := template;
     tc_subscriber := None |}.

(** Lines 25-62.  The first component is what was sent to the analytics
    service, the second the promise the method returns. *)
Definition executeAll (R : Repositories)
    (command : GetSubscriberPreferenceCommand)
    : list TrackedEvent * Promise (list ISubscriberPreferenceResponse) :=
  let admin := getOrganizationAdminAccount R (pc_organizationId command) in
  let templateList :=
    getActiveList R (pc_organizationId command) (pc_environmentId command) true in
  let tracked :=
    match admin with
    | Some a =>
        [ {| ev_name := "Fetch User Preferences - [Notification Center]";
             ev_userId := member_userId a;
             ev_organization := pc_organizationId command;
             ev_templatesSize := length templateList |} ]
    | None => []
    end in
  (tracked,
   Promise_all
     (map (fun template => execute R (createTemplateCommand command template))
          templateList)).

(* ===================================================================== *)
(** * Reference definitions used to state the properties *)
(* ===================================================================== *)

(** A channel map pruned to a list of channels: the keys outside the list
    are gone and the others keep their value. *)
Definition prunedTo (activeChannels : list string) (m : IPreferenceChannels)
    : IPreferenceChannels :=
  filter (fun kv => kv.1 ∈ activeChannels) m.

(** The first occurrence of every value, in the order of the list. *)
Fixpoint firstSeen (xs : list string) : list string :=
  match xs with
  | [] => []
  | x :: rest => x :: filter (fun y => y ≠ x) (firstSeen rest)
  end.

(** The command with another list of steps, or another default
    preference, in its workflow. *)
Definition withSteps (command : GetSubscriberTemplatePreferenceCommand)
    (steps : list NotificationStepEntity)
    : GetSubscriberTemplatePreferenceCommand :=
  let t := tc_template command in
  {| tc_organizationId := tc_organizationId command;
     tc_subscriberId := tc_subscriberId command;
     tc_environmentId := tc_environmentId command;
     tc_template :=
       {| tpl_id := tpl_id t; tpl_name := tpl_name t;
          tpl_critical := tpl_critical t; tpl_steps := steps;
          tpl_preferenceSettings := tpl_preferenceSettings t |};
     tc_subscriber := tc_subscriber command |}.

Definition withPreferenceSettings
    (command : GetSubscriberTemplatePreferenceCommand)
    (settings : option IPreferenceChannels)
    : GetSubscriberTemplatePreferenceCommand :=
  let t := tc_template command in
  {| tc_organizationId := tc_organizationId command;
     tc_subscriberId := tc_subscriberId command;
     tc_environmentId := tc_environmentId command;
     tc_template :=
       {| tpl_id := tpl_id t; tpl_name := tpl_name t;
          tpl_critical := tpl_critical t; tpl_steps := tpl_steps t;
          tpl_preferenceSettings := settings |};
     tc_subscriber := tc_subscriber command |}.

(* ===================================================================== *)
(** * A small installation to run the use cases on *)
(* ===================================================================== *)

Module Scenario.

Definition stepOf (active : JsValue) (channel : string) : NotificationStepEntity :=
  {| step_active := active;
     step_template := Some {| mt_id := "mt-" +:+ channel; mt_type := channel |};
     step_templateId := "mt-" +:+ channel |}.

(** A step that only refers to its message template. *)
Definition bareStep (active : JsValue) (channel : string) : NotificationStepEntity :=
  {| step_active := active;
     step_template := None;
     step_templateId := "mt-" +:+ channel |}.

Definition steps : list NotificationStepEntity :=
  [ stepOf (JsBool true) "email";
    stepOf (JsBool true) "sms";
    stepOf (JsBool false) "push" ].

Definition workflow (id : string) (settings : option IPreferenceChannels)
    : NotificationTemplateEntity :=
  {| tpl_id := id; tpl_name := "workflow " +:+ id; tpl_critical := None;
     tpl_steps := steps; tpl_preferenceSettings := settings |}.

Definition emailOnSmsOff : IPreferenceChannels :=
  <["email" := true]> (<["sms" := false]> ∅).

Definition staleChannels : IPreferenceChannels :=
  <["chat" := true]> (<["push" := false]> ∅).

Definition alice : SubscriberEntity :=
  {| sub_id := "64a0"; sub_subscriberId := "alice" |}.

(** Stored preferences of alice, by workflow:
    - [w-partial]: one channel, [{sms: true}];
    - [w-whole]: as many keys as active channels, [{email: true, sms: false}];
    - [w-stale]: two keys, neither an active channel;
    - [w-muted]: switched off as a whole, no channel map. *)
Definition storedPreference (templateId : string)
    : option SubscriberPreferenceEntity :=
  if bool_decide (templateId = "w-partial") then
    Some {| sp_enabled := None; sp_channels := Some (<["sms" := true]> ∅) |}
  else if bool_decide (templateId = "w-whole") then
    Some {| sp_enabled := Some false; sp_channels := Some emailOnSmsOff |}
  else if bool_decide (templateId = "w-stale") then
    Some {| sp_enabled := Some true;
            sp_channels := Some staleChannels |}
  else if bool_decide (templateId = "w-muted") then
    Some {| sp_enabled := Some false; sp_channels := None |}
  else None.

Definition messageTemplates : list MessageTemplateEntity :=
  [ {| mt_id := "mt-email"; mt_type := "email" |};
    {| mt_id := "mt-sms"; mt_type := "sms" |};
    {| mt_id := "mt-push"; mt_type := "push" |};
    {| mt_id := "mt-email"; mt_type := "email" |} ].

Definition repositories : Repositories :=
  {| findBySubscriberId := fun env subscriberId =>
       if bool_decide (env = "env-1" ∧ subscriberId = "alice")
       then Some alice else None;
     findOne := fun env subscriber templateId =>
       if bool_decide (env = "env-1" ∧ subscriber = "64a0")
       then storedPreference templateId else None;
     find := fun env ids =>
       if bool_decide (env = "env-1")
       then filter (fun mt => mt_id mt ∈ ids) messageTemplates else [];
     getActiveList := fun org env _ =>
       if bool_decide (org = "org-1" ∧ env = "env-1")
       then [ workflow "w-partial" (Some emailOnSmsOff);
              workflow "w-whole" None;
              workflow "w-fresh" None ]
       else [];
     getOrganizationAdminAccount := fun org =>
       if bool_decide (org = "org-1")
       then Some {| member_userId := "admin-1" |} else None |}.

Definition commandFor (subscriberId : string) (t : NotificationTemplateEntity)
    : GetSubscriberTemplatePreferenceCommand :=
  {| tc_organizationId := "org-1"; tc_subscriberId := subscriberId;
     tc_environmentId := "env-1"; tc_template := t; tc_subscriber := None |}.

Definition batchCommand : GetSubscriberPreferenceCommand :=
  {| pc_organizationId := "org-1"; pc_subscriberId := "alice";
     pc_environmentId := "env-1" |}.

(** The commands the properties below are run on. *)
Definition partialCommand : GetSubscriberTemplatePreferenceCommand :=
  commandFor "alice" (workflow "w-partial" (Some emailOnSmsOff)).

Definition staleCommand : GetSubscriberTemplatePreferenceCommand :=
  commandFor "alice" (workflow "w-stale" (Some emailOnSmsOff)).

Definition freshCommand : GetSubscriberTemplatePreferenceCommand :=
  commandFor "alice" (workflow "w-fresh" None).

Definition strangerCommand : GetSubscriberTemplatePreferenceCommand :=
  commandFor "bob" (workflow "w-fresh" None).

End Scenario.

(* ===================================================================== *)
(** * Variations of a command and of the storage, and further cases *)
(* ===================================================================== *)

(** The command with another subscriber id. *)
Definition withSubscriberId (command : GetSubscriberTemplatePreferenceCommand)
    (subscriberId : string) : GetSubscriberTemplatePreferenceCommand :=
  {| tc_organizationId := tc_organizationId command;
     tc_subscriberId := subscriberId;
     tc_environmentId := tc_environmentId command;
     tc_template := tc_template command;
     tc_subscriber := tc_subscriber command |}.

(** The repositories with another answer to the lookup of subscribers. *)
Definition withSubscriberLookup (R : Repositories)
    (lookup : string → string → option SubscriberEntity) : Repositories :=
  {| findBySubscriberId := lookup;
     findOne := findOne R;
     find := find R;
     getActiveList := getActiveList R;
     getOrganizationAdminAccount := getOrganizationAdminAccount R |}.

(** The five keys of the literal of lines 200-206. *)
Definition fallbackChannels : list string :=
  ["email"; "sms"; "in_app"; "chat"; "push"].

Module Cases.
Import Scenario.

(** A workflow none of whose steps is active. *)
Definition idleCommand : GetSubscriberTemplatePreferenceCommand :=
  withSteps partialCommand
    [stepOf (JsBool false) "email"; stepOf JsUndefined "sms"].

(** [w-muted] with a default preference: alice stored a flag and no map. *)
Definition mutedCommand : GetSubscriberTemplatePreferenceCommand :=
  commandFor "alice" (workflow "w-muted" (Some emailOnSmsOff)).

Definition wholeCommand : GetSubscriberTemplatePreferenceCommand :=
  commandFor "alice" (workflow "w-whole" (Some (<["email" := false]> ∅))).

(** Alice's one-key map for [w-partial], in a workflow without default. *)
Definition partialNoDefaultCommand : GetSubscriberTemplatePreferenceCommand :=
  commandFor "alice" (workflow "w-partial" None).

(** Two active steps, the first of which only refers to its template. *)
Definition lookupCommand : GetSubscriberTemplatePreferenceCommand :=
  withSteps freshCommand
    [bareStep (JsBool true) "sms"; stepOf (JsBool true) "email"].

(** The same ids, with a misleading template embedded in the second. *)
Definition lookupCommand' : GetSubscriberTemplatePreferenceCommand :=
  withSteps freshCommand
    [bareStep (JsBool true) "sms";
     {| step_active := JsBool true;
        step_template := Some {| mt_id := "mt-email"; mt_type := "chat" |};
        step_templateId := "mt-email" |}].

(** The caller hands alice over under an id the storage does not know. *)
Definition handedOverCommand : GetSubscriberTemplatePreferenceCommand :=
  {| tc_organizationId := "org-1"; tc_subscriberId := "nobody";
     tc_environmentId := "env-1";
     tc_template := workflow "w-partial" (Some emailOnSmsOff);
     tc_subscriber := Some alice |}.


End Cases.

(* ===================================================================== *)
(** * Channel maps: keys, merging and pruning *)
(* ===================================================================== *)

Section ChannelMaps.
Implicit Types (m target : IPreferenceChannels) (key : string).
Implicit Types (activeChannels : list string).

Lemma Object_keys_length m : length (Object_keys m) = size m.
Proof.
  unfold Object_keys. rewrite length_fmap. apply length_map_to_list.
Qed.

Lemma elem_of_Object_keys m key : key ∈ Object_keys m ↔ is_Some (m !! key).
Proof.
  unfold Object_keys. rewrite list_elem_of_fmap. split.
  - intros [[k v] [-> Hkv]]. apply elem_of_map_to_list in Hkv. eauto.
  - intros [v Hv]. exists (key, v). split; [done|].
    by apply elem_of_map_to_list.
Qed.

Lemma Object_assign_copy (preference : option IPreferenceChannels) :
  Object_assign ∅ [preference] = default ∅ preference.
Proof. unfold Object_assign. simpl. apply (right_id_L ∅ (∪)). Qed.

Lemma Object_assign_merge m1 m2 :
  Object_assign ∅ [Some m1; Some m2] = m2 ∪ m1.
Proof. unfold Object_assign. simpl. by rewrite (right_id_L ∅ (∪)). Qed.

Lemma some_channel_is_key activeChannels key :
  existsb (fun channel => bool_decide (channel = key)) activeChannels = true
  ↔ key ∈ activeChannels.
Proof.
  rewrite existsb_exists. split.
  - intros [c [Hin Hc]]. apply bool_decide_eq_true in Hc. subst c.
    by apply list_elem_of_In.
  - intros Hin. exists key. split; [by apply list_elem_of_In|].
    by apply bool_decide_eq_true.
Qed.

(** What the deleting loop of [filterActiveChannels] leaves under a key,
    for any list of visited keys. *)
Lemma delete_loop_lookup activeChannels (visited : list string) target key :
  foldl
    (fun filtered k =>
       if existsb (fun channel => bool_decide (channel = k)) activeChannels
       then filtered else delete k filtered)
    target visited !! key
  = if decide (key ∈ visited ∧ key ∉ activeChannels) then None
    else target !! key.
Proof.
  revert target.
  induction visited as [|k visited IH]; intros target; cbn [foldl].
  - rewrite decide_False; [done|]. intros [H _]. by apply elem_of_nil in H.
  - rewrite IH. clear IH.
    destruct (decide (key ∈ visited ∧ key ∉ activeChannels)) as [[Hv Hn]|Hno].
    { rewrite decide_True; [done|]. split; [by apply list_elem_of_further|done]. }
    destruct (decide (key = k)) as [->|Hne].
    + destruct (existsb _ activeChannels) eqn:Hex.
      * apply some_channel_is_key in Hex.
        rewrite decide_False; [done|]. by intros [_ Hn].
      * rewrite lookup_delete_eq, decide_True; [done|].
        split; [by apply list_elem_of_here|].
        intros Hin. apply some_channel_is_key in Hin. congruence.
    + transitivity (target !! key).
      * destruct (existsb _ activeChannels); [done|].
        by rewrite lookup_delete_ne.
      * rewrite decide_False; [done|]. intros [Hin Hn].
        apply elem_of_cons in Hin as [?|?]; [done|]. by apply Hno.
Qed.

Lemma filterActiveChannels_lookup activeChannels m key :
  filterActiveChannels activeChannels (Some m) !! key
  = if decide (key ∈ activeChannels) then m !! key else None.
Proof.
  unfold filterActiveChannels. rewrite delete_loop_lookup.
  rewrite Object_assign_copy. cbn [default from_option].
  destruct (decide (key ∈ activeChannels)) as [Hin|Hout].
  - rewrite decide_False; [done|]. by intros [_ Hn].
  - destruct (m !! key) eqn:Hm.
    + rewrite decide_True; [done|]. split; [|done].
      apply elem_of_Object_keys. eauto.
    + by destruct (decide _).
Qed.

(** The loop computes the pruned map. *)
Lemma filterActiveChannels_pruned activeChannels m :
  filterActiveChannels activeChannels (Some m) = prunedTo activeChannels m.
Proof.
  apply map_eq. intros key. rewrite filterActiveChannels_lookup.
  unfold prunedTo. destruct (m !! key) as [v|] eqn:Hm.
  - case_decide as Hin.
    + symmetry. apply map_lookup_filter_Some. done.
    + symmetry. apply map_lookup_filter_None. right. intros v' Hv' Hin'.
      simpl in Hin'. done.
  - symmetry. case_decide; apply map_lookup_filter_None; by left.
Qed.

Lemma filterActiveChannels_undefined activeChannels :
  filterActiveChannels activeChannels None = ∅.
Proof. unfold filterActiveChannels. by rewrite Object_assign_copy. Qed.

Lemma filterActiveChannels_keys activeChannels preference key :
  is_Some (filterActiveChannels activeChannels preference !! key) →
  key ∈ activeChannels.
Proof.
  destruct preference as [m|].
  - rewrite filterActiveChannels_lookup. case_decide; [done|].
    intros [? ?]. done.
  - rewrite filterActiveChannels_undefined, lookup_empty.
    intros [? ?]. done.
Qed.

Lemma prunedTo_disjoint activeChannels m :
  (∀ key, key ∈ activeChannels → m !! key = None) →
  prunedTo activeChannels m = ∅.
Proof.
  intros Hdis. apply map_eq. intros key. rewrite lookup_empty.
  apply map_lookup_filter_None. destruct (m !! key) eqn:Hm; [|by left].
  right. intros v Hv Hin. simpl in Hin. rewrite (Hdis _ Hin) in Hm. done.
Qed.

Lemma subscriberPreferenceIsWhole_size m activeChannels :
  subscriberPreferenceIsWhole (Some m) activeChannels
  = bool_decide (size m = length activeChannels).
Proof. unfold subscriberPreferenceIsWhole. by rewrite Object_keys_length. Qed.

End ChannelMaps.

(* ===================================================================== *)
(** * Collecting channels without repeats *)
(* ===================================================================== *)

Section Deduplication.
Implicit Types (xs acc : list string) (x : string).

Lemma elem_of_firstSeen xs x : x ∈ firstSeen xs ↔ x ∈ xs.
Proof.
  induction xs as [|y rest IH]; [done|]. cbn [firstSeen].
  rewrite !elem_of_cons, list_elem_of_filter, IH.
  destruct (decide (x = y)); tauto.
Qed.

Lemma NoDup_firstSeen xs : NoDup (firstSeen xs).
Proof.
  induction xs as [|y rest IH]; cbn [firstSeen]; [constructor|].
  apply NoDup_cons. split.
  - rewrite list_elem_of_filter. by intros [Hne _].
  - by apply NoDup_filter.
Qed.

(** The reducing loop started from any accumulator. *)
Lemma push_loop acc xs :
  foldl push_if_new acc xs
  = acc ++ filter (fun y => y ∉ acc) (firstSeen xs).
Proof.
  revert acc. induction xs as [|x rest IH]; intros acc; cbn [foldl firstSeen].
  - by rewrite filter_nil, app_nil_r.
  - rewrite IH. unfold push_if_new, includes.
    destruct (bool_decide (x ∈ acc)) eqn:Hx.
    + apply bool_decide_eq_true in Hx.
      rewrite filter_cons_False by (intros Hn; by apply Hn).
      f_equal. rewrite list_filter_filter_l; [done|].
      intros y Hy ->. done.
    + apply bool_decide_eq_false in Hx.
      rewrite filter_cons_True by done.
      rewrite <- app_assoc. cbn [app]. do 2 f_equal.
      rewrite list_filter_filter. apply list_filter_iff.
      intros y. rewrite elem_of_app, list_elem_of_singleton. tauto.
Qed.

Lemma push_loop_firstSeen xs : foldl push_if_new [] xs = firstSeen xs.
Proof.
  rewrite push_loop. cbn [app].
  induction (firstSeen xs) as [|y l IH]; [done|].
  rewrite filter_cons_True; [by rewrite IH|]. apply not_elem_of_nil.
Qed.

Lemma spread_Set_firstSeen xs : spread_Set xs = firstSeen xs.
Proof. apply push_loop_firstSeen. Qed.

End Deduplication.

(* ===================================================================== *)
(** * Active channels *)
(* ===================================================================== *)

Section ActiveChannels.
Variable R : Repositories.
Implicit Types (command : GetSubscriberTemplatePreferenceCommand).
Implicit Types (step : NotificationStepEntity).

Lemma strict_eq_true_iff (v : JsValue) :
  strict_eq_true v = true ↔ v = JsBool true.
Proof. destruct v as [| |[|]| |]; simpl; split; congruence. Qed.

Lemma elem_of_activeSteps template step :
  step ∈ activeSteps template
  ↔ step_active step = JsBool true ∧ step ∈ tpl_steps template.
Proof.
  unfold activeSteps. by rewrite list_elem_of_filter, strict_eq_true_iff.
Qed.

(** Filtering twice changes nothing. *)
Lemma activeSteps_withSteps command :
  activeSteps (tc_template
                 (withSteps command (activeSteps (tc_template command))))
  = activeSteps (tc_template command).
Proof.
  unfold activeSteps, withSteps. cbn [tc_template tpl_steps].
  by apply list_filter_filter_l.
Qed.

Lemma activeSteps_drop_inactive command pre step post :
  step_active step ≠ JsBool true →
  activeSteps (tc_template (withSteps command (pre ++ step :: post)))
  = activeSteps (tc_template (withSteps command (pre ++ post))).
Proof.
  intros Hoff. unfold activeSteps, withSteps. cbn [tc_template tpl_steps].
  rewrite !filter_app, filter_cons_False; [done|].
  by rewrite strict_eq_true_iff.
Qed.

(** The result is a function of the environment and the active steps. *)
Lemma queryActiveChannels_same_activeSteps command command' :
  tc_environmentId command = tc_environmentId command' →
  activeSteps (tc_template command) = activeSteps (tc_template command') →
  queryActiveChannels R command = queryActiveChannels R command'.
Proof. unfold queryActiveChannels. by intros -> ->. Qed.

Lemma stepMissingMessageTemplate_false (steps : list NotificationStepEntity) :
  stepMissingMessageTemplate steps = false ↔
  ∀ step, step ∈ steps → is_Some (step_template step).
Proof.
  unfold stepMissingMessageTemplate. induction steps as [|s steps IH].
  - split; [|done]. intros _ step Hin. by apply elem_of_nil in Hin.
  - cbn [existsb]. rewrite orb_false_iff, IH, bool_decide_eq_false.
    split.
    + intros [Hs Hall] step [->|Hin]%elem_of_cons; [|by apply Hall].
      by destruct (step_template s); eauto.
    + intros Hall. split.
      * destruct (Hall s) as [t Ht]; [by left|]. by rewrite Ht.
      * intros step Hin. apply Hall. by right.
Qed.

Lemma NoDup_queryActiveChannels command :
  NoDup (queryActiveChannels R command).
Proof.
  unfold queryActiveChannels. destruct (stepMissingMessageTemplate _).
  - rewrite spread_Set_firstSeen. apply NoDup_firstSeen.
  - rewrite push_loop_firstSeen. apply NoDup_firstSeen.
Qed.

End ActiveChannels.

(* ===================================================================== *)
(** * Single-workflow resolution *)
(* ===================================================================== *)

Section Resolution.
Variable R : Repositories.
Implicit Types (command : GetSubscriberTemplatePreferenceCommand).
Implicit Types (subscriber : SubscriberEntity).
Implicit Types (sp : SubscriberPreferenceEntity).
Implicit Types (stored dflt : IPreferenceChannels).

Lemma withPreferenceSettings_id command :
  withPreferenceSettings command (tpl_preferenceSettings (tc_template command))
  = command.
Proof. by destruct command as [? ? ? [] ?]. Qed.

(** Once the subscriber is known, [execute] is a fulfilled promise. *)
Lemma execute_resolved command subscriber :
  resolveSubscriber R command = Some subscriber →
  ∃ r, execute R command = resolve r.
Proof.
  intros Hs. unfold execute. rewrite Hs. cbn [await resolve].
  destruct (subscriberPreferenceIsWhole _ _); [by eexists|].
  destruct (tpl_preferenceSettings _); [|by eexists].
  destruct (channelsOf _); by eexists.
Qed.

Lemma execute_rejected command :
  resolveSubscriber R command = None →
  execute R command = throw (notFound command).
Proof. intros Hs. unfold execute. by rewrite Hs. Qed.

(** Every response is built by [getResponse] from the active channels. *)
Lemma execute_getResponse command r :
  execute R command = resolve r →
  ∃ flag preference,
    r = getResponse (mapResponseTemplate (tc_template command)) flag
          preference (queryActiveChannels R command).
Proof.
  unfold execute. destruct (resolveSubscriber R command); [|done].
  cbn [await resolve].
  destruct (subscriberPreferenceIsWhole _ _).
  { intros [= <-]. eauto. }
  destruct (tpl_preferenceSettings _).
  - destruct (channelsOf _); intros [= <-]; eauto.
  - intros [= <-]. unfold getNoSettingFallback. eauto.
Qed.

(** The flag is the stored one on every path that goes through the
    stored or the default preference. *)
Lemma execute_enabled_outside_fallback command subscriber r :
  resolveSubscriber R command = Some subscriber →
  execute R command = resolve r →
  subscriberPreferenceIsWhole (channelsOf (storedFor R command subscriber))
    (queryActiveChannels R command) = true
  ∨ is_Some (tpl_preferenceSettings (tc_template command)) →
  enabled (preference r) = enabledOrTrue (storedFor R command subscriber).
Proof.
  intros Hs. unfold execute. rewrite Hs. cbn [await resolve].
  destruct (subscriberPreferenceIsWhole _ _).
  { by intros [= <-] _. }
  destruct (tpl_preferenceSettings _).
  - destruct (channelsOf _); by intros [= <-] _.
  - intros _ [?|[? ?]]; done.
Qed.

(** In the fallback of lines 105-110 the flag is [true] whatever is
    stored. *)
Lemma execute_enabled_in_fallback command subscriber r :
  resolveSubscriber R command = Some subscriber →
  execute R command = resolve r →
  subscriberPreferenceIsWhole (channelsOf (storedFor R command subscriber))
    (queryActiveChannels R command) = false →
  tpl_preferenceSettings (tc_template command) = None →
  enabled (preference r) = true.
Proof.
  intros Hs. unfold execute. rewrite Hs. cbn [await resolve].
  intros Hr Hwhole Hnone. rewrite Hwhole, Hnone in Hr.
  by injection Hr as <-.
Qed.

(** C1.  When the stored preference has a channel map with as many keys
    as there are resolved active channels, the response carries that map
    pruned to the active channels, and it is the same response whatever
    the workflow's default preference is, also when it has none.  Only
    the number of keys is compared: a stored map none of whose keys is
    an active channel takes the same path and is pruned to the empty
    map. *)
Theorem whole_stored_map_is_authoritative command subscriber sp stored :
  resolveSubscriber R command = Some subscriber →
  storedFor R command subscriber = Some sp →
  sp_channels sp = Some stored →
  size stored = length (queryActiveChannels R command) →
  ∃ r,
    execute R command = resolve r
    ∧ channels (preference r)
      = prunedTo (queryActiveChannels R command) stored
    ∧ (∀ settings,
         execute R (withPreferenceSettings command settings) = resolve r)
    ∧ ((∀ key, key ∈ queryActiveChannels R command → stored !! key = None) →
       channels (preference r) = ∅).
Proof.
  intros Hs Hsp Hch Hsize.
  set (r := getResponse (mapResponseTemplate (tc_template command))
              (default true (sp_enabled sp)) (Some stored)
              (queryActiveChannels R command)).
  assert (∀ settings,
            execute R (withPreferenceSettings command settings) = resolve r)
    as Hall.
  { intros settings. unfold execute.
    change (resolveSubscriber R (withPreferenceSettings command settings))
      with (resolveSubscriber R command).
    rewrite Hs. cbn [await resolve].
    change (queryActiveChannels R (withPreferenceSettings command settings))
      with (queryActiveChannels R command).
    change (storedFor R (withPreferenceSettings command settings) subscriber)
      with (storedFor R command subscriber).
    rewrite Hsp. cbn [channelsOf mbind option_bind enabledOrTrue].
    rewrite Hch, subscriberPreferenceIsWhole_size.
    rewrite bool_decide_eq_true_2 by done. done. }
  assert (channels (preference r)
          = prunedTo (queryActiveChannels R command) stored) as Hpruned.
  { apply filterActiveChannels_pruned. }
  exists r. split; [|split; [done|split; [done|]]].
  - rewrite <- (withPreferenceSettings_id command). apply Hall.
  - intros Hstale. rewrite Hpruned. by apply prunedTo_disjoint.
Qed.

(** C3.  Whatever is stored, whatever the default preference and the
    workflow are, every key of the channel map of a response is one of
    the resolved active channels. *)
Theorem response_channels_are_active command r key :
  execute R command = resolve r →
  is_Some (channels (preference r) !! key) →
  key ∈ queryActiveChannels R command.
Proof.
  intros Hr. destruct (execute_getResponse _ _ Hr) as (flag & p & ->).
  apply filterActiveChannels_keys.
Qed.

(** C4.  With a default preference in the workflow and a stored channel
    map whose number of keys differs from the number of active channels,
    an active channel resolves to its stored value when the stored map
    has the key, and otherwise to what the default map has for it: on a
    key of both the stored value is the one returned. *)
Theorem partial_stored_map_overrides_default
    command subscriber sp stored dflt :
  resolveSubscriber R command = Some subscriber →
  storedFor R command subscriber = Some sp →
  sp_channels sp = Some stored →
  tpl_preferenceSettings (tc_template command) = Some dflt →
  size stored ≠ length (queryActiveChannels R command) →
  ∃ r,
    execute R command = resolve r
    ∧ ∀ key, key ∈ queryActiveChannels R command →
        channels (preference r) !! key
        = match stored !! key with
          | Some v => Some v
          | None => dflt !! key
          end.
Proof.
  intros Hs Hsp Hch Hd Hsize. unfold execute.
  rewrite Hs. cbn [await resolve].
  rewrite Hsp. cbn [channelsOf mbind option_bind].
  rewrite Hch, subscriberPreferenceIsWhole_size.
  rewrite bool_decide_eq_false_2 by done. rewrite Hd.
  eexists. split; [done|]. intros key Hkey.
  cbn [getResponse preference channels].
  rewrite filterActiveChannels_lookup, decide_True by done.
  rewrite Object_assign_merge, lookup_union.
  destruct (stored !! key), (dflt !! key); done.
Qed.

(** C5.  Without a stored preference and without a default preference
    the response has [enabled = true] and the map that sends each of
    email, sms, in_app, chat and push to [true], pruned to the active
    channels. *)
Theorem no_setting_fallback command subscriber :
  resolveSubscriber R command = Some subscriber →
  storedFor R command subscriber = None →
  tpl_preferenceSettings (tc_template command) = None →
  ∃ r,
    execute R command = resolve r
    ∧ enabled (preference r) = true
    ∧ channels (preference r)
      = prunedTo (queryActiveChannels R command)
          (list_to_map [("email", true); ("sms", true); ("in_app", true);
                        ("chat", true); ("push", true)]).
Proof.
  intros Hs Hsp Hd. unfold execute.
  rewrite Hs. cbn [await resolve].
  rewrite Hsp. cbn [channelsOf mbind option_bind subscriberPreferenceIsWhole].
  rewrite Hd. eexists. split; [done|]. split; [done|].
  unfold getNoSettingFallback. cbn [getResponse preference channels].
  apply filterActiveChannels_pruned.
Qed.

(** C7.  No response has the [overrides] member: [getResponse] builds
    the preference from [enabled] and [channels] alone, so nothing says
    which of the default and the stored preference a channel's value
    came from. *)
Theorem response_has_no_overrides command :
  match execute R command with
  | inr r => overrides (preference r) = None
  | inl _ => True
  end.
Proof.
  destruct (execute R command) as [e|r] eqn:Hr; [done|].
  by destruct (execute_getResponse _ _ Hr) as (flag & p & ->).
Qed.

(** C8.  The resolution is rejected exactly when the command carries no
    subscriber and the lookup by environment and subscriber id finds
    none; the rejection is then the "not found" exception and nothing
    else can reject it.  A command that carries a subscriber is always
    answered, and a rejected resolution has no response. *)
Theorem rejected_iff_subscriber_missing command :
  ((∃ e, execute R command = throw e)
   ↔ tc_subscriber command = None
     ∧ findBySubscriberId R (tc_environmentId command)
         (tc_subscriberId command) = None)
  ∧ (∀ e, execute R command = throw e →
       e = ApiException
             ("Subscriber " +:+ tc_subscriberId command +:+ " not found")
       ∧ ∀ r, execute R command ≠ resolve r)
  ∧ (is_Some (tc_subscriber command) → ∃ r, execute R command = resolve r).
Proof.
  assert (∀ e, execute R command = throw e →
               resolveSubscriber R command = None ∧ e = notFound command)
    as Hrej.
  { intros e He. destruct (resolveSubscriber R command) as [s|] eqn:Hs.
    - destruct (execute_resolved _ _ Hs) as [r Hr].
      unfold throw, resolve in *. congruence.
    - rewrite (execute_rejected _ Hs) in He. by injection He as <-. }
  split; [split|split].
  - intros [e He]. destruct (Hrej _ He) as [Hs _].
    unfold resolveSubscriber in Hs.
    by destruct (tc_subscriber command).
  - intros [Hc Hf]. exists (notFound command). apply execute_rejected.
    unfold resolveSubscriber. by rewrite Hc.
  - intros e He. destruct (Hrej _ He) as [_ ->]. split; [done|].
    intros r Hr. unfold throw, resolve in *. congruence.
  - intros [s Hc]. apply (execute_resolved _ s).
    unfold resolveSubscriber. by rewrite Hc.
Qed.

End Resolution.

(* ===================================================================== *)
(** * Active-channel resolution *)
(* ===================================================================== *)

Section ActiveChannelResolution.
Variable R : Repositories.
Implicit Types (command : GetSubscriberTemplatePreferenceCommand).
Implicit Types (step : NotificationStepEntity).

(** C6.  The list of active channels has no repeats and is computed from
    the steps whose [active] is [true] alone: it is the list obtained
    once every other step is removed, each of its channels is the type
    of the template of such a step when all of them carry one, and is
    the type of a message template found for the ids of such steps
    otherwise.  When all of them carry one, the list is the types in
    step order, each kept at its first occurrence.  Without a step whose
    [active] is [true] the list is empty. *)
Theorem active_channels_resolution command :
  let steps := activeSteps (tc_template command) in
  let result := queryActiveChannels R command in
  NoDup result
  ∧ result = queryActiveChannels R (withSteps command steps)
  ∧ ((∀ step, step ∈ steps → is_Some (step_template step)) →
     (∀ types,
        Forall2 (fun step type => mt_type <$> step_template step = Some type)
          steps types →
        result = firstSeen types)
     ∧ (∀ channel, channel ∈ result →
          ∃ step t, step ∈ tpl_steps (tc_template command)
                    ∧ step_active step = JsBool true
                    ∧ step_template step = Some t
                    ∧ mt_type t = channel))
  ∧ (¬ (∀ step, step ∈ steps → is_Some (step_template step)) →
     ∀ channel, channel ∈ result →
       ∃ mt, mt ∈ find R (tc_environmentId command)
                    (map step_templateId steps)
             ∧ mt_type mt = channel)
  ∧ (steps = [] → result = []).
Proof.
  intros steps result. split; [apply NoDup_queryActiveChannels|].
  split.
  { apply queryActiveChannels_same_activeSteps; [done|].
    symmetry. apply activeSteps_withSteps. }
  subst result. unfold queryActiveChannels. fold steps.
  split; [|split].
  - intros Hall. apply stepMissingMessageTemplate_false in Hall as Hdirect.
    rewrite Hdirect, push_loop_firstSeen. split.
    + intros types Htypes. f_equal.
      clear -Htypes. induction Htypes as [|step type l l' Hty _ IH]; [done|].
      cbn [omap list_omap]. fold (@omap list _).
      by rewrite Hty, <- IH.
    + intros channel Hin. rewrite elem_of_firstSeen in Hin.
      apply list_elem_of_omap in Hin as (step & Hstep & Hty).
      apply elem_of_activeSteps in Hstep as [Hon Hstep].
      destruct (step_template step) as [t|] eqn:Ht; [|done].
      injection Hty as <-. eauto 10.
  - intros Hsome.
    destruct (stepMissingMessageTemplate steps) eqn:Hmiss.
    + intros channel Hin.
      rewrite spread_Set_firstSeen, elem_of_firstSeen in Hin.
      apply list_elem_of_fmap in Hin as (mt & -> & Hmt).
      eauto.
    + destruct Hsome. by apply stepMissingMessageTemplate_false.
  - by intros ->.
Qed.

(** C10.  A step whose [active] is anything but the boolean [true]
    (absent, null, [false], a number, a string) can be taken out of the
    workflow without changing the resolved active channels, whether the
    channels come from the steps' own templates or from the lookup of
    message templates. *)
Theorem inactive_step_never_contributes command pre step post :
  step_active step ≠ JsBool true →
  queryActiveChannels R (withSteps command (pre ++ step :: post))
  = queryActiveChannels R (withSteps command (pre ++ post)).
Proof.
  intros Hoff. apply queryActiveChannels_same_activeSteps; [done|].
  by apply activeSteps_drop_inactive.
Qed.

End ActiveChannelResolution.

(* ===================================================================== *)
(** * Batch resolution *)
(* ===================================================================== *)

Section Batch.
Variable R : Repositories.
Implicit Types (command : GetSubscriberPreferenceCommand).

Lemma Promise_all_fulfilled {A : Type} (ps : list (Promise A)) (values : list A) :
  Promise_all ps = resolve values ↔ Forall2 (fun p a => p = resolve a) ps values.
Proof.
  revert values. induction ps as [|p ps IH]; intros values; cbn [Promise_all].
  - split.
    + intros [= <-]. constructor.
    + intros Hall. by apply Forall2_nil_inv_l in Hall as ->.
  - destruct p as [e|a]; cbn [await].
    + split; [done|]. intros Hall.
      apply Forall2_cons_inv_l in Hall as (? & ? & ? & _). done.
    + destruct (Promise_all ps) as [e|rest] eqn:Hps; cbn [await].
      * split; [done|]. intros Hall.
        apply Forall2_cons_inv_l in Hall as (? & l & _ & Hrest & _).
        apply IH in Hrest. done.
      * split.
        -- intros [= <-]. constructor; [done|]. by apply IH.
        -- intros Hall.
           apply Forall2_cons_inv_l in Hall as (a' & l & Ha & Hrest & ->).
           apply IH in Hrest. injection Ha as <-. injection Hrest as <-.
           done.
Qed.

(** C9.  A batch that is answered has one response per workflow of the
    fetched list, in the order of that list: the i-th response is the
    resolution of the i-th workflow.  It is answered whenever the
    subscriber is found. *)
Theorem batch_follows_workflow_order command :
  let templateList :=
    getActiveList R (pc_organizationId command) (pc_environmentId command)
      true in
  (∀ responses,
     (executeAll R command).2 = resolve responses →
     length responses = length templateList
     ∧ ∀ i workflow,
         templateList !! i = Some workflow →
         ∃ r, responses !! i = Some r
              ∧ execute R (createTemplateCommand command workflow)
                = resolve r)
  ∧ (is_Some (findBySubscriberId R (pc_environmentId command)
                (pc_subscriberId command)) →
     ∃ responses, (executeAll R command).2 = resolve responses).
Proof.
  intros templateList. unfold executeAll. fold templateList. cbn [snd].
  split.
  - intros responses Hall. apply Promise_all_fulfilled in Hall.
    apply Forall2_fmap_l in Hall. split.
    + symmetry. by eapply Forall2_length.
    + intros i workflow Hi.
      destruct (Forall2_lookup_l _ _ _ _ _ Hall Hi) as (r & Hr & Hex).
      eauto.
  - intros [subscriber Hfound]. clear -Hfound.
    induction templateList as [|workflow rest [responses IH]].
    + by exists [].
    + destruct (execute_resolved R (createTemplateCommand command workflow)
                  subscriber) as [r Hr].
      { unfold resolveSubscriber. done. }
      exists (r :: responses). cbn [map Promise_all].
      by rewrite Hr, IH.
Qed.

End Batch.

(* ===================================================================== *)
(** * The flag of a muted subscriber on a workflow without default *)
(* ===================================================================== *)

(** C2.  Alice has switched the workflow [w-muted] off as a whole
    ([enabled: false], no channel map) and the workflow has no default
    preference: the stored flag is read and defined, yet the response is
    the one of [getNoSettingFallback], with [enabled = true].  With a
    default preference in the same workflow the stored flag is the one
    returned. *)
Theorem muted_subscriber_enabled_by_fallback :
  let command settings :=
    Scenario.commandFor "alice" (Scenario.workflow "w-muted" settings) in
  (sp_enabled <$> storedFor Scenario.repositories (command None) Scenario.alice)
  = Some (Some false)
  ∧ match execute Scenario.repositories (command None) with
    | inr r => enabled (preference r) = true
    | inl _ => False
    end
  ∧ match execute Scenario.repositories
            (command (Some Scenario.emailOnSmsOff)) with
    | inr r => enabled (preference r) = false
    | inl _ => False
    end.
Proof. vm_compute. done. Qed.

(* ===================================================================== *)
(** * The properties at work on the small installation *)
(* ===================================================================== *)

Section Runs.
Import Scenario.

(** Alice's stored map for [w-stale] has two keys, chat and push, and the
    workflow has two active channels, email and sms: the stored map is
    taken and nothing of it is left. *)
Lemma whole_stored_map_run :
  ∃ r,
    execute repositories staleCommand = resolve r
    ∧ channels (preference r)
      = prunedTo (queryActiveChannels repositories staleCommand) staleChannels
    ∧ (∀ settings,
         execute repositories (withPreferenceSettings staleCommand settings)
         = resolve r)
    ∧ ((∀ key, key ∈ queryActiveChannels repositories staleCommand →
               staleChannels !! key = None) →
       channels (preference r) = ∅).
Proof.
  apply (whole_stored_map_is_authoritative repositories staleCommand alice
           {| sp_enabled := Some true; sp_channels := Some staleChannels |}
           staleChannels);
    vm_compute; reflexivity.
Defined.

Lemma response_channels_run :
  "sms" ∈ queryActiveChannels repositories partialCommand.
Proof.
  eapply (response_channels_are_active repositories partialCommand _ "sms").
  - reflexivity.
  - vm_compute. eauto.
Defined.

Lemma partial_stored_map_run :
  ∃ r,
    execute repositories partialCommand = resolve r
    ∧ ∀ key, key ∈ queryActiveChannels repositories partialCommand →
        channels (preference r) !! key
        = match (<["sms" := true]> ∅ : IPreferenceChannels) !! key with
          | Some v => Some v
          | None => emailOnSmsOff !! key
          end.
Proof.
  apply (partial_stored_map_overrides_default repositories partialCommand alice
           {| sp_enabled := None; sp_channels := Some (<["sms" := true]> ∅) |});
    vm_compute; (reflexivity || discriminate).
Defined.

Lemma no_setting_fallback_run :
  ∃ r,
    execute repositories freshCommand = resolve r
    ∧ enabled (preference r) = true
    ∧ channels (preference r)
      = prunedTo (queryActiveChannels repositories freshCommand)
          (list_to_map [("email", true); ("sms", true); ("in_app", true);
                        ("chat", true); ("push", true)]).
Proof.
  apply (no_setting_fallback repositories freshCommand alice);
    vm_compute; reflexivity.
Defined.

Lemma active_channels_run :
  queryActiveChannels repositories freshCommand = firstSeen ["email"; "sms"].
Proof.
  destruct (active_channels_resolution repositories freshCommand)
    as (_ & _ & Hdirect & _).
  apply Hdirect.
  - apply stepMissingMessageTemplate_false. vm_compute. reflexivity.
  - vm_compute. repeat constructor.
Defined.

Lemma stranger_rejected_run :
  ∃ e, execute repositories strangerCommand = throw e.
Proof.
  apply (proj1 (rejected_iff_subscriber_missing repositories strangerCommand)).
  split; vm_compute; reflexivity.
Defined.

Lemma batch_run :
  ∃ responses,
    (executeAll repositories batchCommand).2 = resolve responses
    ∧ length responses = 3.
Proof.
  destruct (batch_follows_workflow_order repositories batchCommand)
    as [Hordered Hanswered].
  destruct Hanswered as [responses Hall].
  { vm_compute. eauto. }
  exists responses. split; [exact Hall|].
  apply Hordered in Hall as [Hlength _]. rewrite Hlength.
  vm_compute. reflexivity.
Defined.

(** A step with [active: null] and no embedded template, between two
    active steps that have theirs: counted, it would send the resolution
    to the lookup of message templates. *)
Lemma inactive_step_run :
  queryActiveChannels repositories
    (withSteps freshCommand
       ([stepOf (JsBool true) "sms"] ++ bareStep JsNull "push"
          :: [stepOf (JsBool true) "email"]))
  = queryActiveChannels repositories
      (withSteps freshCommand
         ([stepOf (JsBool true) "sms"] ++ [stepOf (JsBool true) "email"])).
Proof.
  apply (inactive_step_never_contributes repositories freshCommand).
  vm_compute. discriminate.
Defined.

(** The response for [w-partial]: email from the default, sms from the
    stored map, push pruned; it says nothing of where each value came
    from. *)
Example partial_response :
  match execute repositories partialCommand with
  | inr r =>
      queryActiveChannels repositories partialCommand = ["email"; "sms"]
      ∧ enabled (preference r) = true
      ∧ channels (preference r) = <["email" := true]> (<["sms" := true]> ∅)
      ∧ overrides (preference r) = None
  | inl _ => False
  end.
Proof. vm_compute. repeat split; reflexivity. Qed.

(** The response for [w-whole]: the stored map has two keys and is
    returned as it is, with the stored flag. *)
Example whole_response :
  match execute repositories (commandFor "alice" (workflow "w-whole" None)) with
  | inr r =>
      enabled (preference r) = false
      ∧ channels (preference r) = emailOnSmsOff
  | inl _ => False
  end.
Proof. vm_compute. repeat split; reflexivity. Qed.

(** Steps that only refer to their message templates: the channels come
    in the order the storage returns the templates, not in step order. *)
Example lookup_path_order :
  queryActiveChannels repositories
    (withSteps freshCommand
       [bareStep (JsBool true) "sms"; stepOf (JsBool true) "email"])
  = ["email"; "sms"].
Proof. vm_compute. reflexivity. Qed.

End Runs.

(* ===================================================================== *)
(** * Pruning, on its own *)
(* ===================================================================== *)

Section Pruning.
Implicit Types (m : IPreferenceChannels) (key : string).
Implicit Types (activeChannels : list string).
Implicit Types (preference : option IPreferenceChannels).

(** What [filterActiveChannels] leaves under a key, also for a missing
    preference. *)
Lemma filterActiveChannels_lookup_option activeChannels preference key :
  filterActiveChannels activeChannels preference !! key
  = if decide (key ∈ activeChannels) then default ∅ preference !! key
    else None.
Proof.
  destruct preference as [m|]; cbn [default from_option].
  - apply filterActiveChannels_lookup.
  - rewrite filterActiveChannels_undefined, lookup_empty.
    by destruct (decide _).
Qed.

(** Nothing is pruned from a map all of whose keys are active. *)
Lemma filterActiveChannels_all_active activeChannels m :
  (∀ key, is_Some (m !! key) → key ∈ activeChannels) →
  filterActiveChannels activeChannels (Some m) = m.
Proof.
  intros Hall. apply map_eq. intros key.
  rewrite filterActiveChannels_lookup.
  destruct (decide _) as [|Hout]; [done|].
  destruct (m !! key) eqn:Hm; [|done].
  destruct Hout. apply Hall. rewrite Hm. eauto.
Qed.

(** X1.  Pruning a pruned map again, to the same channels, changes
    nothing. *)
Theorem filterActiveChannels_idempotent activeChannels preference :
  filterActiveChannels activeChannels
    (Some (filterActiveChannels activeChannels preference))
  = filterActiveChannels activeChannels preference.
Proof.
  apply map_eq. intros key.
  rewrite filterActiveChannels_lookup, filterActiveChannels_lookup_option.
  by destruct (decide _).
Qed.

(** X2.  Pruning never changes the value of a key it keeps, and it gives
    the map back unchanged exactly when every key of the map is an active
    channel. *)
Theorem filterActiveChannels_keeps_values activeChannels m :
  filterActiveChannels activeChannels (Some m) ⊆ m
  ∧ (filterActiveChannels activeChannels (Some m) = m
     ↔ ∀ key, is_Some (m !! key) → key ∈ activeChannels).
Proof.
  split.
  - apply map_subseteq_spec. intros key v.
    rewrite filterActiveChannels_lookup. by destruct (decide _).
  - split.
    + intros Heq key [v Hv]. rewrite <- Heq in Hv.
      apply (filterActiveChannels_keys activeChannels (Some m)). eauto.
    + apply filterActiveChannels_all_active.
Qed.

(** X3.  The pruned map depends on which channels are active, not on
    their order in the list or on how often one is listed. *)
Theorem filterActiveChannels_same_channels
    activeChannels activeChannels' preference :
  (∀ key, key ∈ activeChannels ↔ key ∈ activeChannels') →
  filterActiveChannels activeChannels preference
  = filterActiveChannels activeChannels' preference.
Proof.
  intros Hsame. apply map_eq. intros key.
  rewrite !filterActiveChannels_lookup_option.
  destruct (decide (key ∈ activeChannels)) as [Hin|Hout].
  - rewrite decide_True; [done|]. by apply Hsame.
  - rewrite decide_False; [done|]. by rewrite <- Hsame.
Qed.

(** No more keys are left than there are active channels. *)
Lemma filterActiveChannels_size activeChannels preference :
  (size (filterActiveChannels activeChannels preference)
   ≤ length activeChannels)%nat.
Proof.
  rewrite <- Object_keys_length. apply submseteq_length, NoDup_submseteq.
  - apply NoDup_fst_map_to_list.
  - intros key Hkey. apply elem_of_Object_keys in Hkey.
    by apply filterActiveChannels_keys in Hkey.
Qed.

(** A map with as many keys as there are channels in a list without
    repeats, all of them in the list, has every channel of the list. *)
Lemma keys_cover_active activeChannels m key :
  NoDup activeChannels →
  size m = length activeChannels →
  (∀ k, is_Some (m !! k) → k ∈ activeChannels) →
  key ∈ activeChannels → is_Some (m !! key).
Proof.
  intros Hnodup Hsize Hkeys Hkey. apply elem_of_Object_keys.
  assert (Object_keys m ⊆+ activeChannels) as Hsub.
  { apply NoDup_submseteq; [apply NoDup_fst_map_to_list|].
    intros k Hk. by apply Hkeys, elem_of_Object_keys. }
  apply submseteq_length_Permutation in Hsub.
  - by rewrite Hsub.
  - rewrite Object_keys_length. lia.
Qed.

End Pruning.

(* ===================================================================== *)
(** * Single-workflow resolution: the remaining paths *)
(* ===================================================================== *)

Section ResolutionPaths.
Variable R : Repositories.
Implicit Types (command : GetSubscriberTemplatePreferenceCommand).
Implicit Types (subscriber : SubscriberEntity).
Implicit Types (m dflt : IPreferenceChannels) (key : string).

Lemma allChannelsOn_lookup key :
  allChannelsOn !! key
  = if decide (key ∈ fallbackChannels) then Some true else None.
Proof.
  unfold allChannelsOn, fallbackChannels.
  destruct (decide (key ∈ _)) as [Hin|Hout].
  - repeat (apply elem_of_cons in Hin as [->|Hin]; [by vm_compute|]).
    by apply elem_of_nil in Hin.
  - repeat (rewrite lookup_insert_ne;
            [|intros <-; apply Hout; repeat constructor]).
    apply lookup_empty.
Qed.

Lemma subscriberPreferenceIsWhole_false
    (preference : option IPreferenceChannels) (activeChannels : list string) :
  (∀ m, preference = Some m → size m ≠ length activeChannels) →
  subscriberPreferenceIsWhole preference activeChannels = false.
Proof.
  intros Hpartial. destruct preference as [m|]; [|done].
  rewrite subscriberPreferenceIsWhole_size.
  apply bool_decide_eq_false_2. by apply Hpartial.
Qed.

(** X4.  For a workflow without a step whose [active] is [true] there is
    no active channel, and the channel map of the response is empty
    whatever is stored and whatever the default preference is. *)
Theorem no_active_step_no_channel command subscriber :
  resolveSubscriber R command = Some subscriber →
  activeSteps (tc_template command) = [] →
  queryActiveChannels R command = []
  ∧ ∃ r, execute R command = resolve r ∧ channels (preference r) = ∅.
Proof.
  intros Hs Hidle.
  assert (queryActiveChannels R command = []) as Hnone.
  { unfold queryActiveChannels. by rewrite Hidle. }
  split; [done|].
  destruct (execute_resolved R _ _ Hs) as [r Hr]. exists r. split; [done|].
  destruct (execute_getResponse R _ _ Hr) as (flag & p & ->).
  cbn [getResponse preference channels]. rewrite Hnone.
  apply map_eq. intros key.
  rewrite filterActiveChannels_lookup_option, lookup_empty.
  rewrite decide_False; [done|]. apply not_elem_of_nil.
Qed.

(** X5.  With a default preference in the workflow and no stored channel
    map (nothing stored, or a stored preference without [channels]), the
    response carries the default map pruned to the active channels, and
    the stored flag when there is one. *)
Theorem default_used_without_stored_map command subscriber dflt :
  resolveSubscriber R command = Some subscriber →
  channelsOf (storedFor R command subscriber) = None →
  tpl_preferenceSettings (tc_template command) = Some dflt →
  ∃ r,
    execute R command = resolve r
    ∧ channels (preference r) = prunedTo (queryActiveChannels R command) dflt
    ∧ enabled (preference r)
      = match storedFor R command subscriber with
        | Some sp => default true (sp_enabled sp)
        | None => true
        end.
Proof.
  intros Hs Hch Hd. unfold execute. rewrite Hs. cbn [await resolve].
  rewrite Hch. cbn [subscriberPreferenceIsWhole]. rewrite Hd.
  eexists. split; [done|]. cbn [getResponse preference channels enabled].
  split; [apply filterActiveChannels_pruned|done].
Qed.

(** X6.  When the workflow has a default preference, or the stored map
    has as many keys as there are active channels, the flag of the
    response is the stored one, and [true] when nothing is stored or the
    stored preference leaves it out. *)
Theorem enabled_is_stored_flag command subscriber :
  resolveSubscriber R command = Some subscriber →
  is_Some (tpl_preferenceSettings (tc_template command))
  ∨ (∃ m, channelsOf (storedFor R command subscriber) = Some m
          ∧ size m = length (queryActiveChannels R command)) →
  ∃ r,
    execute R command = resolve r
    ∧ enabled (preference r)
      = match storedFor R command subscriber with
        | Some sp => default true (sp_enabled sp)
        | None => true
        end.
Proof.
  intros Hs Hpath. destruct (execute_resolved R _ _ Hs) as [r Hr].
  exists r. split; [done|].
  apply (execute_enabled_outside_fallback R command subscriber r Hs Hr).
  destruct Hpath as [Hd|(m & Hm & Hsize)]; [by right|left].
  rewrite Hm, subscriberPreferenceIsWhole_size.
  by apply bool_decide_eq_true_2.
Qed.

(** X7.  On every path the response names the workflow it is about: its
    id and name, and its [critical] flag, which is [true] for a workflow
    that does not set it. *)
Theorem response_names_the_workflow command r :
  execute R command = resolve r →
  cfg_id (template r) = tpl_id (tc_template command)
  ∧ cfg_name (template r) = tpl_name (tc_template command)
  ∧ cfg_critical (template r)
    = default true (tpl_critical (tc_template command)).
Proof.
  intros Hr. destruct (execute_getResponse R _ _ Hr) as (flag & p & ->).
  cbn [getResponse template mapResponseTemplate cfg_id cfg_name cfg_critical].
  by destruct (tpl_critical _).
Qed.

(** X8.  When the stored map has as many keys as there are active
    channels and all its keys are active channels, its keys are exactly
    the active channels: the response carries the stored map unchanged,
    which is also what merging it over any default preference and pruning
    would give. *)
Theorem whole_stored_map_of_active_keys command subscriber m :
  resolveSubscriber R command = Some subscriber →
  channelsOf (storedFor R command subscriber) = Some m →
  size m = length (queryActiveChannels R command) →
  (∀ key, is_Some (m !! key) → key ∈ queryActiveChannels R command) →
  (∀ key, key ∈ queryActiveChannels R command ↔ is_Some (m !! key))
  ∧ (∃ r, execute R command = resolve r ∧ channels (preference r) = m)
  ∧ ∀ dflt,
      filterActiveChannels (queryActiveChannels R command)
        (Some (Object_assign ∅ [Some dflt; Some m])) = m.
Proof.
  intros Hs Hch Hsize Hkeys.
  assert (∀ key, key ∈ queryActiveChannels R command → is_Some (m !! key))
    as Hcover.
  { intros key. apply keys_cover_active; [|done..].
    apply NoDup_queryActiveChannels. }
  split; [split; auto|]. split.
  - unfold execute. rewrite Hs. cbn [await resolve].
    rewrite Hch, subscriberPreferenceIsWhole_size.
    rewrite bool_decide_eq_true_2 by done.
    eexists. split; [done|]. cbn [getResponse preference channels].
    by apply filterActiveChannels_all_active.
  - intros dflt. apply map_eq. intros key.
    rewrite filterActiveChannels_lookup, Object_assign_merge, lookup_union.
    destruct (decide _) as [Hin|Hout].
    + destruct (Hcover _ Hin) as [v ->]. by destruct (dflt !! key).
    + destruct (m !! key) eqn:Hm; [|done].
      destruct Hout. apply Hkeys. rewrite Hm. eauto.
Qed.

End ResolutionPaths.

Section ResolutionInvariants.
Variable R : Repositories.
Implicit Types (command : GetSubscriberTemplatePreferenceCommand).
Implicit Types (subscriber : SubscriberEntity).
Implicit Types (m dflt : IPreferenceChannels) (key : string).

(** X9.  Without a default preference in the workflow, a stored channel
    map whose number of keys differs from the number of active channels is
    not used: each active channel among email, sms, in_app, chat and push
    is [true] in the response, also one the stored map sets to [false],
    and no other key is there. *)
Theorem fallback_ignores_partial_stored_map command subscriber :
  resolveSubscriber R command = Some subscriber →
  tpl_preferenceSettings (tc_template command) = None →
  (∀ m, channelsOf (storedFor R command subscriber) = Some m →
        size m ≠ length (queryActiveChannels R command)) →
  ∃ r,
    execute R command = resolve r
    ∧ ∀ key,
        channels (preference r) !! key
        = if decide (key ∈ queryActiveChannels R command
                     ∧ key ∈ fallbackChannels)
          then Some true else None.
Proof.
  intros Hs Hd Hpartial. unfold execute. rewrite Hs. cbn [await resolve].
  rewrite (subscriberPreferenceIsWhole_false _ _ Hpartial), Hd.
  eexists. split; [done|]. intros key.
  unfold getNoSettingFallback. cbn [getResponse preference channels].
  rewrite filterActiveChannels_lookup, allChannelsOn_lookup.
  destruct (decide (key ∈ queryActiveChannels R command)) as [Hin|Hout],
           (decide (key ∈ fallbackChannels)) as [Hfb|Hnfb].
  - by rewrite decide_True.
  - rewrite decide_False; [done|]. by intros [_ ?].
  - rewrite decide_False; [done|]. by intros [? _].
  - rewrite decide_False; [done|]. by intros [? _].
Qed.

(** X10.  A value in the channel map of a response is never made up: it
    is the value the stored map has for the key, or the value the
    workflow's default has for it, or it is [true] for one of email, sms,
    in_app, chat and push in a workflow without default preference. *)
Theorem response_values_have_a_source command subscriber r key v :
  resolveSubscriber R command = Some subscriber →
  execute R command = resolve r →
  channels (preference r) !! key = Some v →
  (∃ m, channelsOf (storedFor R command subscriber) = Some m
        ∧ m !! key = Some v)
  ∨ (∃ dflt, tpl_preferenceSettings (tc_template command) = Some dflt
             ∧ dflt !! key = Some v)
  ∨ (tpl_preferenceSettings (tc_template command) = None
     ∧ v = true ∧ key ∈ fallbackChannels).
Proof.
  intros Hs. unfold execute. rewrite Hs. cbn [await resolve].
  destruct (channelsOf (storedFor R command subscriber)) as [m|] eqn:Hch.
  - destruct (subscriberPreferenceIsWhole _ _).
    { intros [= <-]. cbn [getResponse preference channels].
      rewrite filterActiveChannels_lookup. destruct (decide _); [|done].
      intros Hv. left. eauto. }
    destruct (tpl_preferenceSettings _) as [dflt|].
    + cbv beta iota. intros [= <-]. cbn [getResponse preference channels].
      rewrite filterActiveChannels_lookup.
      rewrite (right_id_L ∅ (∪) dflt), lookup_union.
      destruct (decide _); [|done].
      destruct (m !! key) as [w|] eqn:Hm.
      * destruct (dflt !! key); intros [= <-]; left; eauto.
      * destruct (dflt !! key) eqn:Hdk; intros [= <-]. right. left. eauto.
    + intros [= <-]. unfold getNoSettingFallback.
      cbn [getResponse preference channels].
      rewrite filterActiveChannels_lookup, allChannelsOn_lookup.
      repeat destruct (decide _); try done. intros [= <-]. by repeat right.
  - cbn [subscriberPreferenceIsWhole].
    destruct (tpl_preferenceSettings _) as [dflt|].
    + intros [= <-]. cbn [getResponse preference channels].
      rewrite filterActiveChannels_lookup. destruct (decide _); [|done].
      intros Hv. right. left. eauto.
    + intros [= <-]. unfold getNoSettingFallback.
      cbn [getResponse preference channels].
      rewrite filterActiveChannels_lookup, allChannelsOn_lookup.
      repeat destruct (decide _); try done. intros [= <-]. by repeat right.
Qed.

(** X11.  The channel map of a response has at most as many keys as the
    workflow has active channels. *)
Theorem response_size_bounded command r :
  execute R command = resolve r →
  (size (channels (preference r)) ≤ length (queryActiveChannels R command))%nat.
Proof.
  intros Hr. destruct (execute_getResponse R _ _ Hr) as (flag & p & ->).
  apply filterActiveChannels_size.
Qed.

(** X12.  When the caller hands the subscriber over, the lookup of
    subscribers is not consulted and the subscriber id of the command is
    not used: the resolution is the same for any other lookup and any
    other id, the stored preference being read under the [_id] of the
    entity handed over. *)
Theorem handed_over_subscriber_is_used command subscriber lookup subscriberId :
  tc_subscriber command = Some subscriber →
  execute (withSubscriberLookup R lookup) (withSubscriberId command subscriberId)
  = execute R command.
Proof.
  intros Hgiven. unfold execute, resolveSubscriber.
  cbn [withSubscriberId tc_subscriber]. by rewrite Hgiven.
Qed.

End ResolutionInvariants.

(* ===================================================================== *)
(** * Active channels: the two paths *)
(* ===================================================================== *)

Section ActiveChannelPaths.
Variable R : Repositories.
Implicit Types (command : GetSubscriberTemplatePreferenceCommand).
Implicit Types (step : NotificationStepEntity).

Lemma stepMissingMessageTemplate_true (steps : list NotificationStepEntity) :
  stepMissingMessageTemplate steps = true ↔
  ∃ step, step ∈ steps ∧ step_template step = None.
Proof.
  unfold stepMissingMessageTemplate. rewrite existsb_exists. split.
  - intros (step & Hin & Hnone). exists step.
    split; [by apply list_elem_of_In|]. by apply bool_decide_eq_true in Hnone.
  - intros (step & Hin & Hnone). exists step.
    split; [by apply list_elem_of_In|]. by apply bool_decide_eq_true.
Qed.

Lemma length_firstSeen (xs : list string) :
  (length (firstSeen xs) ≤ length xs)%nat.
Proof.
  induction xs as [|x rest IH]; [done|]. cbn [firstSeen length].
  pose proof (length_filter (fun y => y ≠ x) (firstSeen rest)). lia.
Qed.

Lemma length_omap_le {A B : Type} (f : A → option B) (l : list A) :
  (length (omap f l) ≤ length l)%nat.
Proof.
  induction l as [|a l IH]; [done|]. simpl.
  change (list_omap A B f l) with (omap f l).
  destruct (f a); simpl; lia.
Qed.

(** X13.  When an active step has no embedded template, the active
    channels are the types of the message templates the storage returns
    for the ids of the active steps, each at its first occurrence, in the
    order the storage returns them.  The templates embedded in the other
    steps are not read: a workflow with the same ids in its active steps
    resolves to the same channels. *)
Theorem lookup_path_follows_storage command :
  (∃ step, step ∈ activeSteps (tc_template command)
           ∧ step_template step = None) →
  queryActiveChannels R command
  = firstSeen
      (map mt_type
         (find R (tc_environmentId command)
            (map step_templateId (activeSteps (tc_template command)))))
  ∧ ∀ command',
      tc_environmentId command' = tc_environmentId command →
      map step_templateId (activeSteps (tc_template command'))
      = map step_templateId (activeSteps (tc_template command)) →
      (∃ step, step ∈ activeSteps (tc_template command')
               ∧ step_template step = None) →
      queryActiveChannels R command' = queryActiveChannels R command.
Proof.
  intros Hmiss. apply stepMissingMessageTemplate_true in Hmiss.
  assert (queryActiveChannels R command
          = firstSeen
              (map mt_type
                 (find R (tc_environmentId command)
                    (map step_templateId
                       (activeSteps (tc_template command))))))
    as Hresult.
  { unfold queryActiveChannels. rewrite Hmiss. apply spread_Set_firstSeen. }
  split; [done|]. intros command' Henv Hids Hmiss'.
  apply stepMissingMessageTemplate_true in Hmiss'.
  rewrite Hresult. unfold queryActiveChannels. rewrite Hmiss'.
  rewrite spread_Set_firstSeen. by rewrite Henv, Hids.
Qed.

(** X14.  When every active step embeds its template, a channel is active
    exactly when it is the type of the template of a step whose [active]
    is [true], and there are at most as many active channels as such
    steps. *)
Theorem direct_path_channels command :
  (∀ step, step ∈ activeSteps (tc_template command) →
           is_Some (step_template step)) →
  (∀ channel,
     channel ∈ queryActiveChannels R command
     ↔ ∃ step t, step ∈ tpl_steps (tc_template command)
                 ∧ step_active step = JsBool true
                 ∧ step_template step = Some t
                 ∧ mt_type t = channel)
  ∧ (length (queryActiveChannels R command)
     ≤ length (activeSteps (tc_template command)))%nat.
Proof.
  intros Hall. apply stepMissingMessageTemplate_false in Hall.
  unfold queryActiveChannels. rewrite Hall, push_loop_firstSeen. split.
  - intros channel. rewrite elem_of_firstSeen, list_elem_of_omap. split.
    + intros (step & Hstep & Hty).
      apply elem_of_activeSteps in Hstep as [Hon Hstep].
      destruct (step_template step) as [t|] eqn:Ht; [|done].
      injection Hty as <-. eauto 10.
    + intros (step & t & Hstep & Hon & Ht & <-). exists step. split.
      * by apply elem_of_activeSteps.
      * by rewrite Ht.
  - etransitivity; [apply length_firstSeen|apply length_omap_le].
Qed.

End ActiveChannelPaths.

(* ===================================================================== *)
(** * Batch resolution: analytics, rejection, identity of the answers *)
(* ===================================================================== *)

Section BatchPaths.
Variable R : Repositories.
Implicit Types (command : GetSubscriberPreferenceCommand).
Implicit Types (workflows : list NotificationTemplateEntity).


Lemma batch_answers workflows command responses :
  Promise_all
    (map (fun workflow => execute R (createTemplateCommand command workflow))
         workflows)
  = resolve responses →
  Forall2
    (fun workflow r =>
       execute R (createTemplateCommand command workflow) = resolve r)
    workflows responses.
Proof.
  intros Hall. apply Promise_all_fulfilled in Hall.
  by apply Forall2_fmap_l in Hall.
Qed.

(** X15.  A batch reports to analytics once when the organization has an
    admin account and not at all otherwise.  The event is attributed to
    the admin and carries the number of fetched workflows, which is the
    number of responses when the batch is answered. *)
Theorem batch_analytics command :
  let workflows :=
    getActiveList R (pc_organizationId command) (pc_environmentId command)
      true in
  let admin := getOrganizationAdminAccount R (pc_organizationId command) in
  let tracked := (executeAll R command).1 in
  (tracked = [] ↔ admin = None)
  ∧ (∀ account, admin = Some account →
       tracked
       = [ {| ev_name := "Fetch User Preferences - [Notification Center]";
              ev_userId := member_userId account;
              ev_organization := pc_organizationId command;
              ev_templatesSize := length workflows |} ])
  ∧ (∀ event responses,
       event ∈ tracked →
       (executeAll R command).2 = resolve responses →
       ev_templatesSize event = length responses).
Proof.
  intros workflows admin tracked. subst tracked. unfold executeAll.
  fold workflows admin. cbn [fst snd]. split; [|split].
  - by destruct admin.
  - by intros account ->.
  - intros event responses Hevent Hall.
    apply batch_answers, Forall2_length in Hall. rewrite <- Hall.
    destruct admin; [|by apply elem_of_nil in Hevent].
    by apply list_elem_of_singleton in Hevent as ->.
Qed.


(** X17.  The responses of an answered batch name the fetched workflows,
    in order: their ids and names are the ids and names of the fetched
    list. *)
Theorem batch_responses_name_workflows command responses :
  (executeAll R command).2 = resolve responses →
  let workflows :=
    getActiveList R (pc_organizationId command) (pc_environmentId command)
      true in
  map (fun r => (cfg_id (template r), cfg_name (template r))) responses
  = map (fun workflow => (tpl_id workflow, tpl_name workflow)) workflows.
Proof.
  intros Hall workflows. unfold executeAll in Hall. fold workflows in Hall.
  cbn [snd] in Hall. apply batch_answers in Hall.
  induction Hall as [|workflow r rest responses Hr _ IH]; [done|].
  cbn [map]. rewrite IH. f_equal.
  destruct (execute_getResponse R _ _ Hr) as (flag & p & ->). done.
Qed.

End BatchPaths.

(* ===================================================================== *)
(** * The further properties at work on the small installation *)
(* ===================================================================== *)

Section FurtherRuns.
Import Scenario Cases.

Lemma same_channels_run :
  filterActiveChannels ["email"; "sms"] (Some staleChannels)
  = filterActiveChannels ["sms"; "email"; "sms"] (Some staleChannels).
Proof.
  apply filterActiveChannels_same_channels.
  intros key. rewrite !elem_of_cons, elem_of_nil. tauto.
Defined.

Lemma idle_workflow_run :
  queryActiveChannels repositories idleCommand = []
  ∧ ∃ r, execute repositories idleCommand = resolve r
         ∧ channels (preference r) = ∅.
Proof.
  apply (no_active_step_no_channel repositories idleCommand alice);
    vm_compute; reflexivity.
Defined.

Lemma default_used_run :
  ∃ r,
    execute repositories mutedCommand = resolve r
    ∧ channels (preference r)
      = prunedTo (queryActiveChannels repositories mutedCommand) emailOnSmsOff
    ∧ enabled (preference r)
      = match storedFor repositories mutedCommand alice with
        | Some sp => default true (sp_enabled sp)
        | None => true
        end.
Proof.
  apply (default_used_without_stored_map repositories mutedCommand alice);
    vm_compute; reflexivity.
Defined.

Lemma enabled_is_stored_flag_run :
  ∃ r,
    execute repositories mutedCommand = resolve r
    ∧ enabled (preference r)
      = match storedFor repositories mutedCommand alice with
        | Some sp => default true (sp_enabled sp)
        | None => true
        end.
Proof.
  apply (enabled_is_stored_flag repositories mutedCommand alice).
  - vm_compute. reflexivity.
  - left. vm_compute. eauto.
Defined.

Lemma response_names_run :
  ∃ r,
    execute repositories partialCommand = resolve r
    ∧ cfg_id (template r) = "w-partial"
    ∧ cfg_name (template r) = "workflow w-partial"
    ∧ cfg_critical (template r) = true.
Proof.
  eexists. split; [reflexivity|].
  apply (response_names_the_workflow repositories partialCommand).
  reflexivity.
Defined.

Lemma whole_stored_map_of_active_keys_run :
  (∀ key, key ∈ queryActiveChannels repositories wholeCommand
          ↔ is_Some (emailOnSmsOff !! key))
  ∧ (∃ r, execute repositories wholeCommand = resolve r
          ∧ channels (preference r) = emailOnSmsOff)
  ∧ ∀ dflt,
      filterActiveChannels (queryActiveChannels repositories wholeCommand)
        (Some (Object_assign ∅ [Some dflt; Some emailOnSmsOff]))
      = emailOnSmsOff.
Proof.
  apply (whole_stored_map_of_active_keys repositories wholeCommand alice).
  - vm_compute. reflexivity.
  - vm_compute. reflexivity.
  - vm_compute. reflexivity.
  - intros key Hkey. unfold emailOnSmsOff in Hkey.
    destruct (decide (key = "email")) as [->|Hemail];
      [apply (bool_decide_unpack _); by vm_compute|].
    destruct (decide (key = "sms")) as [->|Hsms];
      [apply (bool_decide_unpack _); by vm_compute|].
    rewrite !lookup_insert_ne, lookup_empty in Hkey by done.
    by apply is_Some_None in Hkey.
Defined.

Lemma fallback_ignores_stored_run :
  ∃ r,
    execute repositories partialNoDefaultCommand = resolve r
    ∧ ∀ key,
        channels (preference r) !! key
        = if decide (key ∈ queryActiveChannels repositories
                             partialNoDefaultCommand
                     ∧ key ∈ fallbackChannels)
          then Some true else None.
Proof.
  apply (fallback_ignores_partial_stored_map repositories
           partialNoDefaultCommand alice).
  - vm_compute. reflexivity.
  - vm_compute. reflexivity.
  - intros m Hm. vm_compute in Hm. injection Hm as <-.
    intros Hsize. vm_compute in Hsize. discriminate.
Defined.

Lemma response_value_source_run :
  (∃ m, channelsOf (storedFor repositories partialCommand alice) = Some m
        ∧ m !! "sms" = Some true)
  ∨ (∃ dflt,
       tpl_preferenceSettings (tc_template partialCommand) = Some dflt
       ∧ dflt !! "sms" = Some true)
  ∨ (tpl_preferenceSettings (tc_template partialCommand) = None
     ∧ true = true ∧ "sms" ∈ fallbackChannels).
Proof.
  eapply (response_values_have_a_source repositories partialCommand alice);
    vm_compute; reflexivity.
Defined.

Lemma response_size_run :
  ∃ r,
    execute repositories staleCommand = resolve r
    ∧ (size (channels (preference r))
       ≤ length (queryActiveChannels repositories staleCommand))%nat.
Proof.
  eexists. split; [reflexivity|].
  apply (response_size_bounded repositories staleCommand). reflexivity.
Defined.

Lemma handed_over_run :
  execute (withSubscriberLookup repositories (fun _ _ => None))
    (withSubscriberId handedOverCommand "alice")
  = execute repositories handedOverCommand.
Proof.
  apply (handed_over_subscriber_is_used repositories handedOverCommand alice).
  reflexivity.
Defined.

Lemma lookup_path_run :
  queryActiveChannels repositories lookupCommand'
  = queryActiveChannels repositories lookupCommand.
Proof.
  destruct (lookup_path_follows_storage repositories lookupCommand)
    as [_ Hsame].
  - exists (bareStep (JsBool true) "sms"). split; [|reflexivity].
    vm_compute. left.
  - apply Hsame; [reflexivity|reflexivity|].
    exists (bareStep (JsBool true) "sms"). split; [|reflexivity].
    vm_compute. left.
Defined.

Lemma direct_path_run :
  (∀ channel,
     channel ∈ queryActiveChannels repositories freshCommand
     ↔ ∃ step t, step ∈ tpl_steps (tc_template freshCommand)
                 ∧ step_active step = JsBool true
                 ∧ step_template step = Some t
                 ∧ mt_type t = channel)
  ∧ (length (queryActiveChannels repositories freshCommand)
     ≤ length (activeSteps (tc_template freshCommand)))%nat.
Proof.
  apply (direct_path_channels repositories freshCommand).
  apply stepMissingMessageTemplate_false. vm_compute. reflexivity.
Defined.

Lemma batch_analytics_run :
  (executeAll repositories batchCommand).1
  = [ {| ev_name := "Fetch User Preferences - [Notification Center]";
         ev_userId := "admin-1";
         ev_organization := "org-1";
         ev_templatesSize := 3 |} ].
Proof.
  destruct (batch_analytics repositories batchCommand) as (_ & Honce & _).
  apply (Honce {| member_userId := "admin-1" |}). vm_compute. reflexivity.
Defined.


Lemma batch_names_run :
  ∃ responses,
    (executeAll repositories batchCommand).2 = resolve responses
    ∧ map (fun r => (cfg_id (template r), cfg_name (template r))) responses
      = [("w-partial", "workflow w-partial"); ("w-whole", "workflow w-whole");
         ("w-fresh", "workflow w-fresh")].
Proof.
  eexists. split; [reflexivity|].
  apply (batch_responses_name_workflows repositories batchCommand).
  reflexivity.
Defined.

End FurtherRuns.
